(** * Emissary health-check shim: the Envoy watcher and its HTTP front door

    A shallow embedding of

    - [pkg/acp/envoy.go]: the [EnvoyWatcher], its default fetcher and the
      liveness / readiness queries;
    - [cmd/entrypoint/healthcheck_server.go]: the two probe handlers, the
      reverse-proxy director and the listen / serve / shutdown routine.

    Go code runs against an outside world (the network, the logger, the
    listener).  That world is an abstract type [World]; the code is
    embedded as state-passing functions over it, one goroutine at a time.
    A Go [panic] is an explicit outcome.  Pointers that may be [nil] are
    [option]s, and a Go [error] is the [option] of its message. *)

From stdpp Require Import base strings gmap list.
From Stdlib Require Import ZArith Ascii.

Local Open Scope string_scope.

(** ** The Go runtime, as far as the two files use it *)

(** A non-nil [error] value, identified with the text [Error()] returns. *)
Definition error : Type := string.

(** ASCII line feed, Go's ["\n"]. *)
Definition LF : ascii := ascii_of_nat 10.
Definition nl : string := String LF EmptyString.

Inductive Outcome (A : Type) : Type :=
| Returned (a : A)
| Panicked (reason : string).
Arguments Returned {A} a.
Arguments Panicked {A} reason.

Definition returned {A} (o : Outcome A) : bool :=
  match o with Returned _ => true | Panicked _ => false end.

Section GoMonad.
Context {World : Type}.

(** What a call can change outside the values it is handed: the outside
    world and the lines written to the debug log. *)
Record State : Type := mkState {
  world : World;
  debug_log : list string;
}.

Definition Go (A : Type) : Type := State -> Outcome A * State.

Definition ret {A} (a : A) : Go A := fun σ => (Returned a, σ).

Definition bind {A B} (m : Go A) (k : A -> Go B) : Go B :=
  fun σ =>
    match m σ with
    | (Returned a, σ') => k a σ'
    | (Panicked r, σ') => (Panicked r, σ')
    end.

Definition panic {A} (reason : string) : Go A := fun σ => (Panicked reason, σ).

(** A call of a function that always returns. *)
Definition call {A} (f : State -> A * State) : Go A :=
  fun σ => let (a, σ') := f σ in (Returned a, σ').

(** [p.field] or [f(...)] through a pointer or function value that may
    be nil. *)
Definition nil_dereference : string :=
  "runtime error: invalid memory address or nil pointer dereference".

Definition deref {A} (p : option A) : Go A :=
  match p with
  | Some a => ret a
  | None => panic nil_dereference
  end.
End GoMonad.
Arguments State : clear implicits.
Arguments Go : clear implicits.

Declare Scope go_scope.
Delimit Scope go_scope with go.
Notation "'let*' x := m 'in' k" := (bind m (fun x => k))
  (at level 10, x name, m at level 100, k at level 200,
   format "'[v' 'let*'  x  :=  m  'in' '/' k ']'") : go_scope.
Notation "'let*' ' p := m 'in' k" := (bind m (fun x => let 'p := x in k))
  (at level 10, p pattern, m at level 100, k at level 200,
   format "'[v' 'let*'  ' p  :=  m  'in' '/' k ']'") : go_scope.
Notation "m ;;; k" := (bind m (fun _ => k))
  (at level 100, right associativity) : go_scope.

(** *** package context *)
Module context.
(** A context, reduced to the bound it puts on the work done under it:
    [timeout] is the time left, in nanoseconds, when there is a
    deadline. *)
Record Context : Type := mkContext { timeout : option Z }.

Definition Background : Context := {| timeout := None |}.

(** [context.WithTimeout]: the child's deadline is never later than the
    parent's. *)
Definition WithTimeout (parent : Context) (d : Z) : Context :=
  {| timeout := Some (match timeout parent with
                      | Some t => Z.min t d
                      | None => d
                      end) |}.
End context.

(** *** package time *)
Module time.
Definition Second : Z := 1000000000.
End time.

(** *** package fmt *)
Module fmt.
(** [fmt.Errorf(prefix + "%v", err)] *)
Definition Errorf (prefix : string) (err : error) : error := prefix +:+ err.
End fmt.

(** *** package io / ioutil *)
Module ioutil.
(** What one [Read] on a connection gives: some bytes, or a failure. *)
Inductive Read : Type :=
| Data (b : string)
| Failure (e : error).

(** An [io.ReadCloser] over a connection: the results of the successive
    [Read]s; after the last of them the stream is at [io.EOF]. *)
Abbreviation Body := (list Read).

Fixpoint concat (l : list string) : string :=
  match l with
  | [] => EmptyString
  | s :: l' => s +:+ concat l'
  end.

(** [ioutil.ReadAll]: reads until [io.EOF] or a failure, and returns what
    it read until then with the failure, if any ([io.EOF] is reported as
    nil). *)
Fixpoint ReadAll (r : Body) : string * option error :=
  match r with
  | [] => (EmptyString, None)
  | Data b :: r' => let (text, err) := ReadAll r' in (b +:+ text, err)
  | Failure e :: _ => (EmptyString, Some e)
  end.
End ioutil.

(** *** package net/url *)
Module url.
Record URL : Type := mkURL {
  Scheme : string;
  Opaque : string;
  Host : string;
  Path : string;
  RawPath : string;
  RawQuery : string;
  Fragment : string;
}.
End url.

(** *** package net/http *)
Module http.
Import ioutil.

Definition MethodGet : string := "GET".
Definition StatusOK : Z := 200.
Definition StatusServiceUnavailable : Z := 503.

(** **** Header: [map[string][]string] under canonical keys *)
Abbreviation Header := (gmap string (list string)).

Definition is_lower (c : ascii) : bool :=
  (97 <=? nat_of_ascii c)%nat && (nat_of_ascii c <=? 122)%nat.
Definition is_upper (c : ascii) : bool :=
  (65 <=? nat_of_ascii c)%nat && (nat_of_ascii c <=? 90)%nat.
Definition is_digit (c : ascii) : bool :=
  (48 <=? nat_of_ascii c)%nat && (nat_of_ascii c <=? 57)%nat.
Definition to_upper (c : ascii) : ascii :=
  if is_lower c then ascii_of_nat (nat_of_ascii c - 32) else c.
Definition to_lower (c : ascii) : ascii :=
  if is_upper c then ascii_of_nat (nat_of_ascii c + 32) else c.

(** The bytes of an RFC 7230 token, the only ones a header name holds. *)
Definition validHeaderFieldByte (c : ascii) : bool :=
  is_lower c || is_upper c || is_digit c
  || bool_decide (c ∈ String.list_ascii_of_string "!#$%&'*+-.^_`|~").

Fixpoint validHeaderField (s : string) : bool :=
  match s with
  | EmptyString => true
  | String c s' => validHeaderFieldByte c && validHeaderField s'
  end.

Fixpoint canonical (upper : bool) (s : string) : string :=
  match s with
  | EmptyString => EmptyString
  | String c s' =>
      String (if upper then to_upper c else to_lower c)
             (canonical (Ascii.eqb c "-"%char) s')
  end.

(** [textproto.CanonicalMIMEHeaderKey]: the first letter and every letter
    after a hyphen in upper case, the others in lower case; a key that
    is not a token is left as it is. *)
Definition CanonicalMIMEHeaderKey (s : string) : string :=
  if validHeaderField s then canonical true s else s.

Definition Header_Set (h : Header) (key value : string) : Header :=
  <[CanonicalMIMEHeaderKey key := [value]]> h.

Definition Header_Get (h : Header) (key : string) : string :=
  match h !! CanonicalMIMEHeaderKey key with
  | Some (v :: _) => v
  | _ => EmptyString
  end.

(** The header is carried: the map has an entry under the key. *)
Definition Header_has (h : Header) (key : string) : bool :=
  bool_decide (is_Some (h !! CanonicalMIMEHeaderKey key)).

(** **** Request and Response *)
Record Request : Type := mkRequest {
  req_ctx : context.Context;
  req_Method : string;
  req_URL : url.URL;
  req_Header : Header;
  req_Body : option Body;
  req_Host : string;
  req_RemoteAddr : string;
}.

Record Response : Type := mkResponse {
  resp_StatusCode : Z;
  resp_Body : Body;
}.

(** **** ResponseWriter, as the server's [response] keeps it *)
Record ResponseWriter : Type := mkResponseWriter {
  rw_header : Header;
  rw_wroteHeader : bool;
  rw_status : Z;
  rw_body : string;
}.

(** The writer a handler is handed: nothing written yet. *)
Definition newResponseWriter : ResponseWriter :=
  {| rw_header := ∅; rw_wroteHeader := false; rw_status := 0;
     rw_body := EmptyString |}.

(** [w.WriteHeader(code)]; a second call changes nothing. *)
Definition WriteHeader (w : ResponseWriter) (code : Z) : ResponseWriter :=
  if rw_wroteHeader w then w
  else {| rw_header := rw_header w; rw_wroteHeader := true;
          rw_status := code; rw_body := rw_body w |}.

(** [w.Write(b)]: the first write sends the header with [StatusOK] when
    [WriteHeader] was not called. *)
Definition Write (w : ResponseWriter) (b : string) : ResponseWriter :=
  let w := WriteHeader w StatusOK in
  {| rw_header := rw_header w; rw_wroteHeader := rw_wroteHeader w;
     rw_status := rw_status w; rw_body := rw_body w +:+ b |}.

Definition withHeader (w : ResponseWriter) (h : Header) : ResponseWriter :=
  {| rw_header := h; rw_wroteHeader := rw_wroteHeader w;
     rw_status := rw_status w; rw_body := rw_body w |}.

(** [fmt.Fprintln(w, s)]: the operand, then a newline. *)
Definition Fprintln (w : ResponseWriter) (s : string) : ResponseWriter :=
  Write w (s +:+ nl).

(** [http.Error]:
<<
    w.Header().Set("Content-Type", "text/plain; charset=utf-8")
    w.Header().Set("X-Content-Type-Options", "nosniff")
    w.WriteHeader(code)
    fmt.Fprintln(w, error)
>> *)
Definition Error (w : ResponseWriter) (err : string) (code : Z) : ResponseWriter :=
  let w := withHeader w (Header_Set (rw_header w) "Content-Type"
                                    "text/plain; charset=utf-8") in
  let w := withHeader w (Header_Set (rw_header w) "X-Content-Type-Options"
                                    "nosniff") in
  let w := WriteHeader w code in
  Fprintln w err.
End http.

(** The outside of an HTTP client: building a request (which validates the
    method and parses the URL) and one round trip of
    [http.DefaultClient]. *)
Class Client (World : Type) : Type := {
  NewRequestWithContext :
    context.Context -> string -> string -> http.Request + error;
  DefaultClient_Do : http.Request -> World -> (http.Response + error) * World;
}.

(** *** package dlog *)
Module dlog.
(** [dlog.Debugf(ctx, prefix + "%v", err)]: one line on the debug log. *)
Definition Debugf {World} (ctx : context.Context) (prefix : string) (err : error)
  : Go World unit :=
  fun σ => (Returned tt,
            {| world := world σ; debug_log := debug_log σ ++ [prefix +:+ err] |}).
End dlog.

(** ** pkg/acp/envoy.go *)
Module acp.
Import context.

(** Modelled from the spec: the declaration of [EnvoyFetcherResponse] is
    not in [envoy.go]; the fields are those [defaultFetcher] fills in, the
    spec's ProbeResult [{statusCode, body}]. *)
Record EnvoyFetcherResponse : Type := mkEnvoyFetcherResponse {
  StatusCode : Z;
  Text : string;
}.

Section Watcher.
Context {World : Type} `{!Client World}.

(** Modelled from the spec: the declaration of [envoyFetcher] is not in
    [envoy.go]; it is the type of [defaultFetcher],
    a function from a context to a pointer to an [EnvoyFetcherResponse]
    and an [error].  A fetcher may read and change the outside world; the
    pointer and the error it returns may each be nil. *)
Definition envoyFetcher : Type :=
  Context -> State World ->
  (option EnvoyFetcherResponse * option error) * State World.

(** The mutex guards [LastSucceeded] inside each method and is free again
    when the method returns, so between calls it carries no state. *)
Record EnvoyWatcher : Type := mkEnvoyWatcher {
  fetchStats : option envoyFetcher;
  LastSucceeded : bool;
}.

(** The receiver is not used by the body.  The deferred [tcancel] and
    [resp.Body.Close] release what the call held and change nothing the
    caller sees. *)
Definition defaultFetcher : envoyFetcher :=
  fun ctx σ =>
    let tctx := WithTimeout ctx (2 * time.Second)%Z in
    match NewRequestWithContext tctx http.MethodGet "http://localhost:8001/stats" with
    | inr err => ((None, Some (fmt.Errorf "error creating request: " err)), σ)
    | inl req =>
        let (resp, wd) := DefaultClient_Do req (world σ) in
        let σ := {| world := wd; debug_log := debug_log σ |} in
        match resp with
        | inr err => ((None, Some (fmt.Errorf "error fetching stats: " err)), σ)
        | inl resp =>
            let statusCode := http.resp_StatusCode resp in
            let (text, err) := ioutil.ReadAll (http.resp_Body resp) in
            match err with
            | Some err => ((None, Some (fmt.Errorf "error reading body: " err)), σ)
            | None =>
                ((Some {| StatusCode := statusCode; Text := text |}, None), σ)
            end
        end
    end.

Definition SetFetchStats (w : EnvoyWatcher) (fetchStats : envoyFetcher) : EnvoyWatcher :=
  {| fetchStats := Some fetchStats; LastSucceeded := LastSucceeded w |}.

Definition NewEnvoyWatcher : EnvoyWatcher :=
  let w := {| fetchStats := None; LastSucceeded := false |} in
  SetFetchStats w defaultFetcher.

Definition FetchEnvoyStats (w : EnvoyWatcher) (ctx : Context) : Go World EnvoyWatcher :=
  (let succeeded := false in
   let* fetch := deref (fetchStats w) in
   let* '(statsResponse, err) := call (fetch ctx) in
   let* succeeded :=
     match err with
     | None =>
         let* r := deref statsResponse in
         if (StatusCode r =? 200)%Z then ret true else ret succeeded
     | Some err =>
         dlog.Debugf ctx "could not fetch Envoy status: " err ;;;
         ret succeeded
     end in
   ret {| fetchStats := fetchStats w; LastSucceeded := succeeded |})%go.

Definition IsAlive (w : EnvoyWatcher) : bool := LastSucceeded w.

Definition IsReady (w : EnvoyWatcher) : bool := IsAlive w.

End Watcher.
Arguments envoyFetcher : clear implicits.
Arguments EnvoyWatcher : clear implicits.
End acp.

(** *** package net, and the server side of net/http *)
Module net.
Record Listener : Type := mkListener { network : string; address : string }.
End net.

(** The handlers [healthCheckHandler] registers, by name. *)
Inductive Handler : Type :=
| CheckAlive
| CheckReady
| ReverseProxy_ServeHTTP.

(** [http.ServeMux]: the registered patterns, in registration order. *)
Abbreviation ServeMux := (list (string * Handler)).

Definition NewServeMux : ServeMux := [].

Definition HandleFunc (sm : ServeMux) (pattern : string) (h : Handler) : ServeMux :=
  sm ++ [(pattern, h)].

Record Server : Type := mkServer { Addr : string; Server_Handler : ServeMux }.

(** The outside of the server routine: binding a listener, starting the
    goroutine that serves on it, waiting on the context's [Done] channel
    and [Server.Shutdown]. *)
Class Net (World : Type) : Type := {
  net_Listen : string -> string -> World -> (net.Listener + error) * World;
  go_Serve : Server -> net.Listener -> World -> World;
  await_Done : context.Context -> World -> World;
  Server_Shutdown : Server -> context.Context -> World -> option error * World;
}.

Definition on_world {World A} (f : World -> A * World) : Go World A :=
  fun σ => let (a, wd) := f (world σ) in
           (Returned a, {| world := wd; debug_log := debug_log σ |}).

Definition on_world_ {World} (f : World -> World) : Go World unit :=
  fun σ => (Returned tt, {| world := f (world σ); debug_log := debug_log σ |}).

(** ** cmd/entrypoint/healthcheck_server.go *)
Module entrypoint.
Import context.

(** Modelled from the spec: [acp.AmbassadorWatcher] is not among the
    sources.  The handlers use three of its methods, the spec's Watcher
    operations Probe, IsAlive and IsReady; a watcher is any type that has
    them. *)
Class AmbassadorWatcher (World : Type) (T : Type) : Type := {
  FetchEnvoyStats : T -> Context -> Go World T;
  IsAlive : T -> bool;
  IsReady : T -> bool;
}.

(** Modelled from the spec: its one Watcher answers the probes from the
    state [envoy.go] keeps, so the [EnvoyWatcher] is a watcher. *)
#[global] Instance EnvoyWatcher_AmbassadorWatcher {World : Type}
  : AmbassadorWatcher World (acp.EnvoyWatcher World) := {
  FetchEnvoyStats := acp.FetchEnvoyStats;
  IsAlive := acp.IsAlive;
  IsReady := acp.IsReady;
}.

Section Handlers.
Context {World : Type} {T : Type} `{!AmbassadorWatcher World T}.

Definition handleCheckAlive (ctx : Context) (w : http.ResponseWriter)
    (r : http.Request) (ambwatch : T) : Go World (http.ResponseWriter * T) :=
  (let* ambwatch := FetchEnvoyStats ambwatch ctx in
   let ok := IsAlive ambwatch in
   if ok then
     ret (http.Write w ("Ambassador is alive and well" +:+ nl), ambwatch)
   else
     ret (http.Error w ("Ambassador is not alive" +:+ nl)
                     http.StatusServiceUnavailable, ambwatch))%go.

Definition handleCheckReady (ctx : Context) (w : http.ResponseWriter)
    (r : http.Request) (ambwatch : T) : Go World (http.ResponseWriter * T) :=
  (let* ambwatch := FetchEnvoyStats ambwatch ctx in
   let ok := IsReady ambwatch in
   if ok then
     ret (http.Write w ("Ambassador is ready and waiting" +:+ nl), ambwatch)
   else
     ret (http.Error w ("Ambassador is not ready" +:+ nl)
                     http.StatusServiceUnavailable, ambwatch))%go.
End Handlers.

(** [url.Parse("http://127.0.0.1:8004/")] *)
Definition diagdOrigin : url.URL :=
  {| url.Scheme := "http"; url.Opaque := EmptyString;
     url.Host := "127.0.0.1:8004"; url.Path := "/";
     url.RawPath := EmptyString; url.RawQuery := EmptyString;
     url.Fragment := EmptyString |}.

Definition set_URL (req : http.Request) (u : url.URL) : http.Request :=
  {| http.req_ctx := http.req_ctx req; http.req_Method := http.req_Method req;
     http.req_URL := u; http.req_Header := http.req_Header req;
     http.req_Body := http.req_Body req; http.req_Host := http.req_Host req;
     http.req_RemoteAddr := http.req_RemoteAddr req |}.

Definition set_Header (req : http.Request) (h : http.Header) : http.Request :=
  {| http.req_ctx := http.req_ctx req; http.req_Method := http.req_Method req;
     http.req_URL := http.req_URL req; http.req_Header := h;
     http.req_Body := http.req_Body req; http.req_Host := http.req_Host req;
     http.req_RemoteAddr := http.req_RemoteAddr req |}.

Definition set_Scheme (u : url.URL) (s : string) : url.URL :=
  {| url.Scheme := s; url.Opaque := url.Opaque u; url.Host := url.Host u;
     url.Path := url.Path u; url.RawPath := url.RawPath u;
     url.RawQuery := url.RawQuery u; url.Fragment := url.Fragment u |}.

Definition set_Host (u : url.URL) (h : string) : url.URL :=
  {| url.Scheme := url.Scheme u; url.Opaque := url.Opaque u; url.Host := h;
     url.Path := url.Path u; url.RawPath := url.RawPath u;
     url.RawQuery := url.RawQuery u; url.Fragment := url.Fragment u |}.

Section Server.
Context {World : Type} `{!Net World}.

(** [acp.HostPortIsLocal] is not among the sources: the director is
    embedded over any such test of a remote address. *)
Variable HostPortIsLocal : string -> bool.

(** The [Director] of the reverse proxy; the request it is handed is the
    outbound one, which it updates in place. *)
Definition Director (req : http.Request) : http.Request :=
  let req := set_URL req (set_Scheme (http.req_URL req) (url.Scheme diagdOrigin)) in
  let req := set_URL req (set_Host (http.req_URL req) (url.Host diagdOrigin)) in
  if HostPortIsLocal (http.req_RemoteAddr req) then
    set_Header req (http.Header_Set (http.req_Header req)
                                    "X-Ambassador-Diag-IP" "127.0.0.1")
  else req.

Definition healthCheckHandler {T : Type} (ctx : Context) (ambwatch : T) : Go World unit :=
  (let sm := NewServeMux in
   let sm := HandleFunc sm "/ambassador/v0/check_alive" CheckAlive in
   let sm := HandleFunc sm "/ambassador/v0/check_ready" CheckReady in
   let sm := HandleFunc sm "/" ReverseProxy_ServeHTTP in
   let* listener := on_world (net_Listen "tcp4" ":8877") in
   match listener with
   | inr err => panic (fmt.Errorf "could not listen on TCP port 8877: " err)
   | inl listener =>
       let s := {| Addr := ":8877"; Server_Handler := sm |} in
       on_world_ (go_Serve s listener) ;;;
       on_world_ (await_Done ctx) ;;;
       let tctx := WithTimeout Background (10 * time.Second)%Z in
       let* err := on_world (Server_Shutdown s tctx) in
       match err with
       | Some err => panic err
       | None => ret tt
       end
   end)%go.
End Server.
End entrypoint.

(** ** Vocabulary of the properties *)

(** What one call of the fetcher handed back: the pointer and the error. *)
Definition FetchOutcome : Type := option acp.EnvoyFetcherResponse * option error.

(** The fetcher returned a nil error and a result with status code 200. *)
Definition fetched_200 (out : FetchOutcome) : Prop :=
  out.2 = None ∧ ∃ r, out.1 = Some r ∧ acp.StatusCode r = 200%Z.

(** The fetcher returned an error, or a result with another status code. *)
Definition fetch_failed (out : FetchOutcome) : Prop :=
  out.2 ≠ None ∨ ∃ r, out.1 = Some r ∧ acp.StatusCode r ≠ 200%Z.

(** The health an outcome stands for, read off that outcome alone. *)
Definition health_of (out : FetchOutcome) : bool :=
  match out with
  | (Some r, None) => (acp.StatusCode r =? 200)%Z
  | _ => false
  end.

(** The state a failed fetch leaves: the fetcher's, with one more line on
    the debug log. *)
Definition logged {World} (e : error) (σ : State World) : State World :=
  {| world := world σ;
     debug_log := debug_log σ ++ ["could not fetch Envoy status: " +:+ e] |}.

Definition with_world {World} (σ : State World) (wd : World) : State World :=
  {| world := wd; debug_log := debug_log σ |}.

(** How many line feeds a text ends in. *)
Fixpoint leading_newlines (l : list ascii) : nat :=
  match l with
  | c :: l' => if Ascii.eqb c LF then S (leading_newlines l') else 0
  | [] => 0
  end.

Definition trailing_newlines (s : string) : nat :=
  leading_newlines (rev (String.list_ascii_of_string s)).

(** What a handler sent, when it returned: the status and the body. *)
Definition response {T} (o : Outcome (http.ResponseWriter * T)) : option (Z * string) :=
  match o with
  | Returned (rw, _) => Some (http.rw_status rw, http.rw_body rw)
  | Panicked _ => None
  end.

(** The [Content-Type] the handler itself set, if it returned. *)
Definition content_type {T} (o : Outcome (http.ResponseWriter * T)) : string :=
  match o with
  | Returned (rw, _) => http.Header_Get (http.rw_header rw) "Content-Type"
  | Panicked _ => EmptyString
  end.

(** The header that marks a request as coming from the local host. *)
Definition DiagIP : string := "X-Ambassador-Diag-IP".

(** The server [healthCheckHandler] sets up. *)
Definition health_server : Server :=
  {| Addr := ":8877";
     Server_Handler := [("/ambassador/v0/check_alive", CheckAlive);
                        ("/ambassador/v0/check_ready", CheckReady);
                        ("/", ReverseProxy_ServeHTTP)] |}.

(** The bound [healthCheckHandler] puts on the shutdown. *)
Definition shutdown_ctx : context.Context :=
  context.WithTimeout context.Background (10 * time.Second)%Z.

(** ** Proof steps *)

(** Split a goal into its conjuncts, and no further. *)
Ltac conjuncts := repeat match goal with |- _ ∧ _ => split end.

(** Two answers to one round trip are one answer: read the body of the
    one as the stream the other is known to hold. *)
Ltac same_response :=
  match goal with
  | HDo : ?d = inl ?resp, H : ?d = inl ?resp', Hbody : http.resp_Body ?resp' = _,
    Hread : ioutil.ReadAll (http.resp_Body ?resp) = _ |- _ =>
      rewrite HDo in H; injection H as <-; rewrite Hbody in Hread
  end.

(** ** A scripted world, for worked examples *)
Module scenario.

(** The answers the network will give to the next round trips, whether the
    port can be bound, how the shutdown will end, and what was done so
    far. *)
Record World : Type := mkWorld {
  answers : list (http.Response + error);
  bind_failure : option error;
  shutdown_failure : option error;
  events : list string;
}.

Definition record_event (wd : World) (e : string) : World :=
  {| answers := answers wd; bind_failure := bind_failure wd;
     shutdown_failure := shutdown_failure wd; events := events wd ++ [e] |}.

Definition next_answer (wd : World) : (http.Response + error) * World :=
  match answers wd with
  | a :: rest =>
      (a, {| answers := rest; bind_failure := bind_failure wd;
             shutdown_failure := shutdown_failure wd; events := events wd |})
  | [] => (inr "dial tcp 127.0.0.1:8001: connect: connection refused", wd)
  end.

#[global] Instance scripted_client : Client World := {
  NewRequestWithContext ctx method target :=
    if String.eqb method "GET" then
      inl {| http.req_ctx := ctx; http.req_Method := method;
             http.req_URL := {| url.Scheme := "http"; url.Opaque := EmptyString;
                                url.Host := "localhost:8001"; url.Path := "/stats";
                                url.RawPath := EmptyString;
                                url.RawQuery := EmptyString;
                                url.Fragment := EmptyString |};
             http.req_Header := ∅; http.req_Body := None;
             http.req_Host := "localhost:8001";
             http.req_RemoteAddr := EmptyString |}
    else inr "net/http: invalid method";
  DefaultClient_Do req wd :=
    next_answer (record_event wd (http.req_Method req +:+ " " +:+ url.Host (http.req_URL req)
                                  +:+ url.Path (http.req_URL req)));
}.

#[global] Instance scripted_net : Net World := {
  net_Listen network address wd :=
    let wd := record_event wd ("listen " +:+ network +:+ " " +:+ address) in
    match bind_failure wd with
    | Some e => (inr e, wd)
    | None => (inl {| net.network := network; net.address := address |}, wd)
    end;
  go_Serve s l wd := record_event wd ("serve " +:+ net.address l);
  await_Done ctx wd := record_event wd "done";
  Server_Shutdown s tctx wd := (shutdown_failure wd, record_event wd "shutdown");
}.

Definition quiet (answers : list (http.Response + error)) : State World :=
  {| world := {| answers := answers; bind_failure := None;
                 shutdown_failure := None; events := [] |};
     debug_log := [] |}.

(** Test fetchers, as a test file would install with [SetFetchStats]. *)
Definition fetch_status (code : Z) : acp.envoyFetcher World :=
  fun _ σ => ((Some {| acp.StatusCode := code; acp.Text := "stats" |}, None), σ).

Definition fetch_error (e : error) : acp.envoyFetcher World :=
  fun _ σ => ((None, Some e), σ).

Definition fetch_nil_nil : acp.envoyFetcher World :=
  fun _ σ => ((None, None), σ).

Definition watcher (f : acp.envoyFetcher World) : acp.EnvoyWatcher World :=
  acp.SetFetchStats acp.NewEnvoyWatcher f.

(** The part of a [host:port] before the last colon. *)
Fixpoint has_colon (s : string) : bool :=
  match s with
  | EmptyString => false
  | String c s' => Ascii.eqb c ":"%char || has_colon s'
  end.

Fixpoint host_of (hostport : string) : string :=
  match hostport with
  | EmptyString => EmptyString
  | String c s' =>
      if Ascii.eqb c ":"%char && negb (has_colon s') then EmptyString
      else String c (host_of s')
  end.

(** Modelled from the spec: [acp.HostPortIsLocal] is not among the
    sources; the spec says [the inbound request's remote address is
    loopback].  This stand-in knows the addresses of 127.0.0.0/8, [::1] and
    the name localhost. *)
Definition HostPortIsLocal (hostport : string) : bool :=
  let host := host_of hostport in
  String.prefix "127." host || String.eqb host "[::1]" || String.eqb host "localhost".

Definition inbound (remote : string) (h : http.Header) : http.Request :=
  {| http.req_ctx := context.Background; http.req_Method := "POST";
     http.req_URL := {| url.Scheme := EmptyString; url.Opaque := EmptyString;
                        url.Host := EmptyString;
                        url.Path := "/ambassador/v0/diag/";
                        url.RawPath := EmptyString; url.RawQuery := "json=true";
                        url.Fragment := EmptyString |};
     http.req_Header := h;
     http.req_Body := Some [ioutil.Data "payload"];
     http.req_Host := "ambassador:8877";
     http.req_RemoteAddr := remote |}.

(** A request from another machine that brings the marker along. *)
Definition spoofed : http.Request :=
  inbound "203.0.113.7:40312" {[ "X-Ambassador-Diag-Ip" := ["127.0.0.1"] ]}.

Definition probe : http.Request :=
  {| http.req_ctx := context.Background; http.req_Method := "GET";
     http.req_URL := {| url.Scheme := EmptyString; url.Opaque := EmptyString;
                        url.Host := EmptyString;
                        url.Path := "/ambassador/v0/check_alive";
                        url.RawPath := EmptyString; url.RawQuery := EmptyString;
                        url.Fragment := EmptyString |};
     http.req_Header := ∅; http.req_Body := None;
     http.req_Host := "10.42.0.17:8877";
     http.req_RemoteAddr := "10.42.0.1:53012" |}.

(** A request from the local host. *)
Definition local_request : http.Request := inbound "127.0.0.1:51000" ∅.

(** A watcher whose last probe succeeded. *)
Definition healthy_watcher (f : acp.envoyFetcher World) : acp.EnvoyWatcher World :=
  {| acp.fetchStats := Some f; acp.LastSucceeded := true |}.

(** A world in which port 8877 is taken. *)
Definition port_taken : State World :=
  {| world := {| answers := [];
                 bind_failure := Some "listen tcp4 :8877: bind: address already in use";
                 shutdown_failure := None; events := [] |};
     debug_log := [] |}.

(** A world in which the shutdown runs into its bound. *)
Definition slow_shutdown : State World :=
  {| world := {| answers := []; bind_failure := None;
                 shutdown_failure := Some "context deadline exceeded";
                 events := [] |};
     debug_log := [] |}.

(** A response whose body breaks off after two reads. *)
Definition broken_body : http.Response :=
  {| http.resp_StatusCode := 200;
     http.resp_Body := [ioutil.Data "cluster.xds"; ioutil.Data ".update_success: 1";
                        ioutil.Failure "unexpected EOF"] |}.

End scenario.

(** ** Properties of the watcher ([envoy.go]) *)
Section WatcherProperties.
Context {World : Type}.
Implicit Types (w : acp.EnvoyWatcher World) (f : acp.envoyFetcher World).
Implicit Types (ctx : context.Context) (σ : State World).

(** The three ways a call of [FetchEnvoyStats] goes, by what the fetcher
    returned. *)
Lemma FetchEnvoyStats_on_error w f ctx σ res e σ1 :
  f ctx σ = ((res, Some e), σ1) →
  acp.FetchEnvoyStats (acp.SetFetchStats w f) ctx σ
  = (Returned {| acp.fetchStats := Some f; acp.LastSucceeded := false |},
     logged e σ1).
Proof.
  intros Hf. unfold acp.FetchEnvoyStats, acp.SetFetchStats, bind, call; simpl.
  rewrite Hf. reflexivity.
Qed.

Lemma FetchEnvoyStats_on_response w f ctx σ r σ1 :
  f ctx σ = ((Some r, None), σ1) →
  acp.FetchEnvoyStats (acp.SetFetchStats w f) ctx σ
  = (Returned {| acp.fetchStats := Some f;
                 acp.LastSucceeded := (acp.StatusCode r =? 200)%Z |}, σ1).
Proof.
  intros Hf. unfold acp.FetchEnvoyStats, acp.SetFetchStats, bind, call; simpl.
  rewrite Hf; simpl. destruct (acp.StatusCode r =? 200)%Z; reflexivity.
Qed.

Lemma FetchEnvoyStats_on_nil_nil w f ctx σ σ1 :
  f ctx σ = ((None, None), σ1) →
  acp.FetchEnvoyStats (acp.SetFetchStats w f) ctx σ
  = (Panicked nil_dereference, σ1).
Proof.
  intros Hf. unfold acp.FetchEnvoyStats, acp.SetFetchStats, bind, call; simpl.
  rewrite Hf. reflexivity.
Qed.

(** Every outcome is one of the three. *)
Lemma outcome_cases f ctx σ :
  (∃ res e σ1, f ctx σ = ((res, Some e), σ1))
  ∨ (∃ r σ1, f ctx σ = ((Some r, None), σ1))
  ∨ (∃ σ1, f ctx σ = ((None, None), σ1)).
Proof.
  destruct (f ctx σ) as [[res [e|]] σ1]; [left; eauto |].
  destruct res as [r|]; right; [left | right]; eauto.
Qed.

Lemma fetched_200_health (out : FetchOutcome) :
  fetched_200 out ↔ health_of out = true.
Proof.
  destruct out as [[r|] [e|]]; unfold fetched_200; simpl; split;
    try (intros [? _]; discriminate); try discriminate;
    try (intros [_ (? & ? & _)]; discriminate).
  - intros [_ (r' & [= <-] & ->)]. reflexivity.
  - intros H%Z.eqb_eq. eauto.
Qed.

Lemma fetch_failed_health (out : FetchOutcome) :
  fetch_failed out → health_of out = false.
Proof.
  destruct out as [[r|] [e|]]; simpl; try reflexivity.
  intros [H | (r' & [= <-] & H)]; [done |]. by apply Z.eqb_neq.
Qed.

(** C1: for every fetcher and every prior state of the watcher, a call of
    [FetchEnvoyStats] whose fetcher returned a nil error and status 200
    returns and leaves [IsAlive] and [IsReady] true; one whose fetcher
    returned an error or another status code returns and leaves both
    false; and after any call that returned, both are true exactly when
    the fetcher returned a nil error and status 200. *)
Theorem FetchEnvoyStats_healthy_iff_200 w f ctx σ :
  let out := (f ctx σ).1 in
  let run := acp.FetchEnvoyStats (acp.SetFetchStats w f) ctx σ in
  (fetched_200 out →
     ∃ w', run.1 = Returned w' ∧ acp.IsAlive w' = true ∧ acp.IsReady w' = true)
  ∧ (fetch_failed out →
     ∃ w', run.1 = Returned w' ∧ acp.IsAlive w' = false ∧ acp.IsReady w' = false)
  ∧ (∀ w', run.1 = Returned w' →
     (acp.IsAlive w' = true ∧ acp.IsReady w' = true) ↔ fetched_200 out).
Proof.
  intros out run. subst out run.
  destruct (outcome_cases f ctx σ) as
    [(res & e & σ1 & Hf) | [(r & σ1 & Hf) | (σ1 & Hf)]].
  - rewrite (FetchEnvoyStats_on_error w f ctx σ res e σ1 Hf), Hf; simpl.
    split; [| split].
    + intros [? _]; discriminate.
    + intros _. eexists; split; [reflexivity | split; reflexivity].
    + intros w' [= <-]. unfold acp.IsReady, acp.IsAlive; simpl.
      split; [intros [? _]; discriminate | intros [? _]; discriminate].
  - rewrite (FetchEnvoyStats_on_response w f ctx σ r σ1 Hf), Hf; simpl.
    split; [| split].
    + intros H%fetched_200_health; simpl in H.
      eexists; split; [reflexivity |].
      unfold acp.IsReady, acp.IsAlive; simpl. by rewrite H.
    + intros H%fetch_failed_health; simpl in H.
      eexists; split; [reflexivity |].
      unfold acp.IsReady, acp.IsAlive; simpl. by rewrite H.
    + intros w' [= <-]. unfold acp.IsReady, acp.IsAlive; simpl.
      rewrite fetched_200_health; simpl. tauto.
  - rewrite (FetchEnvoyStats_on_nil_nil w f ctx σ σ1 Hf), Hf; simpl.
    split; [| split].
    + intros [_ (? & ? & _)]; discriminate.
    + intros [? | (? & ? & _)]; [done | discriminate].
    + intros w' ?; discriminate.
Qed.

(** C2: the watcher [NewEnvoyWatcher] makes, before any call of
    [FetchEnvoyStats], is neither alive nor ready; installing a fetcher
    with [SetFetchStats] does not change that. *)
Theorem NewEnvoyWatcher_fail_closed `{!Client World} :
  acp.IsAlive acp.NewEnvoyWatcher = false
  ∧ acp.IsReady acp.NewEnvoyWatcher = false
  ∧ ∀ f, acp.IsAlive (acp.SetFetchStats acp.NewEnvoyWatcher f) = false
         ∧ acp.IsReady (acp.SetFetchStats acp.NewEnvoyWatcher f) = false.
Proof.
  unfold acp.IsReady, acp.IsAlive, acp.NewEnvoyWatcher, acp.SetFetchStats.
  simpl. repeat split.
Qed.

(** C3 (as amended): for every prior state of the watcher and every
    fetcher outcome other than a nil result with a nil error,
    [FetchEnvoyStats] returns (a fetcher error is logged, never passed
    on), and the watcher it leaves is the same whatever the prior
    [LastSucceeded] was: its [LastSucceeded] is read off that one
    outcome. *)
Theorem FetchEnvoyStats_returns_last_outcome w1 w2 f ctx σ :
  (f ctx σ).1 ≠ (None, None) →
  ∃ w' σ',
    acp.FetchEnvoyStats (acp.SetFetchStats w1 f) ctx σ = (Returned w', σ')
    ∧ acp.FetchEnvoyStats (acp.SetFetchStats w2 f) ctx σ = (Returned w', σ')
    ∧ acp.LastSucceeded w' = health_of (f ctx σ).1.
Proof.
  intros Hwf.
  destruct (outcome_cases f ctx σ) as
    [(res & e & σ1 & Hf) | [(r & σ1 & Hf) | (σ1 & Hf)]].
  - rewrite !(FetchEnvoyStats_on_error _ f ctx σ res e σ1 Hf), Hf.
    do 2 eexists. split; [reflexivity | split; [reflexivity |]].
    simpl. by destruct res.
  - rewrite !(FetchEnvoyStats_on_response _ f ctx σ r σ1 Hf), Hf.
    do 2 eexists. split; [reflexivity | split; reflexivity].
  - rewrite Hf in Hwf. done.
Qed.

(** C4: [IsReady] answers what [IsAlive] answers, in every state of the
    watcher; it is a method of its own, which [handleCheckReady] calls. *)
Theorem IsReady_is_IsAlive w : acp.IsReady w = acp.IsAlive w.
Proof. unfold acp.IsReady. reflexivity. Qed.

(** C10: [FetchEnvoyStats] looks at the fetcher's result only when the
    error is nil.  With a non-nil error the call returns, records a
    failure and logs the error, whatever the result pointer is (nil
    included).  The call returns exactly when the outcome meets the
    precondition [a nil error comes with a non-nil result]; on the one
    outcome that does not, it panics on the nil pointer and records
    nothing. *)
Theorem FetchEnvoyStats_nil_safety w f ctx σ :
  let out := (f ctx σ).1 in
  let run := acp.FetchEnvoyStats (acp.SetFetchStats w f) ctx σ in
  (∀ e, out.2 = Some e →
     run = (Returned {| acp.fetchStats := Some f; acp.LastSucceeded := false |},
            logged e (f ctx σ).2))
  ∧ (returned run.1 = true ↔ (out.2 = None → out.1 ≠ None))
  ∧ (out = (None, None) → run = (Panicked nil_dereference, (f ctx σ).2)).
Proof.
  intros out run. subst out run.
  destruct (outcome_cases f ctx σ) as
    [(res & e & σ1 & Hf) | [(r & σ1 & Hf) | (σ1 & Hf)]].
  - rewrite (FetchEnvoyStats_on_error w f ctx σ res e σ1 Hf), Hf; simpl.
    split; [| split].
    + by intros e' [= <-].
    + split; [intros _ ? | reflexivity]. discriminate.
    + intros ?; discriminate.
  - rewrite (FetchEnvoyStats_on_response w f ctx σ r σ1 Hf), Hf; simpl.
    split; [| split].
    + intros e ?; discriminate.
    + split; [intros _ _ ? | reflexivity]. discriminate.
    + intros ?; discriminate.
  - rewrite (FetchEnvoyStats_on_nil_nil w f ctx σ σ1 Hf), Hf; simpl.
    split; [| split].
    + intros e ?; discriminate.
    + split; [discriminate | intros H]. by destruct H.
    + reflexivity.
Qed.

End WatcherProperties.

(** ** Properties of the default fetcher ([envoy.go]) *)
Section FetcherProperties.
Context {World : Type} `{!Client World}.
Implicit Types (ctx : context.Context) (σ : State World).
Implicit Types (bs : list string) (body : ioutil.Body).

Lemma ReadAll_cons_Data b body :
  ioutil.ReadAll (ioutil.Data b :: body)
  = (b +:+ (ioutil.ReadAll body).1, (ioutil.ReadAll body).2).
Proof. simpl. by destruct (ioutil.ReadAll body). Qed.

(** A stream of data alone is read to its end. *)
Lemma ReadAll_data bs :
  ioutil.ReadAll (ioutil.Data <$> bs) = (ioutil.concat bs, None).
Proof.
  induction bs as [| b bs IH]; [reflexivity |].
  rewrite fmap_cons, ReadAll_cons_Data, IH. reflexivity.
Qed.

(** A stream that fails gives the failure, with what was read before it. *)
Lemma ReadAll_failure bs e body :
  ioutil.ReadAll ((ioutil.Data <$> bs) ++ ioutil.Failure e :: body)%list
  = (ioutil.concat bs, Some e).
Proof.
  induction bs as [| b bs IH]; [reflexivity |].
  rewrite fmap_cons, <- app_comm_cons, ReadAll_cons_Data, IH. reflexivity.
Qed.

(** A stream is of one of these two kinds. *)
Lemma Body_cases body :
  (∃ bs, body = ioutil.Data <$> bs)
  ∨ (∃ bs e rest, body = ((ioutil.Data <$> bs) ++ ioutil.Failure e :: rest)%list).
Proof.
  induction body as [| [b | e] body IH].
  - left. by exists [].
  - destruct IH as [(bs & ->) | (bs & e & rest & ->)].
    + left. by exists (b :: bs).
    + right. by exists (b :: bs), e, rest.
  - right. by exists [], e, body.
Qed.

(** The default fetcher, by what the client and the stream answer. *)
Lemma defaultFetcher_run ctx σ :
  (acp.defaultFetcher ctx σ).1
  = match NewRequestWithContext (context.WithTimeout ctx (2 * time.Second)%Z)
            http.MethodGet "http://localhost:8001/stats" with
    | inr e => (None, Some ("error creating request: " +:+ e))
    | inl req =>
        match (DefaultClient_Do req (world σ)).1 with
        | inr e => (None, Some ("error fetching stats: " +:+ e))
        | inl resp =>
            match ioutil.ReadAll (http.resp_Body resp) with
            | (_, Some e) => (None, Some ("error reading body: " +:+ e))
            | (text, None) =>
                (Some {| acp.StatusCode := http.resp_StatusCode resp;
                         acp.Text := text |}, None)
            end
        end
    end.
Proof.
  unfold acp.defaultFetcher.
  destruct (NewRequestWithContext _ _ _) as [req | e0]; [| reflexivity].
  destruct (DefaultClient_Do req (world σ)) as [[resp | e1] wd]; [| reflexivity].
  simpl. by destruct (ioutil.ReadAll (http.resp_Body resp)) as [text [e2|]].
Qed.

(** The default fetcher never returns a nil result with a nil error, so a
    watcher that keeps it never panics in [FetchEnvoyStats]. *)
Lemma defaultFetcher_meets_precondition ctx σ :
  (acp.defaultFetcher ctx σ).1 ≠ (None, None).
Proof.
  rewrite defaultFetcher_run.
  destruct (NewRequestWithContext _ _ _) as [req | e0]; [| discriminate].
  destruct (DefaultClient_Do req (world σ)).1 as [resp | e1]; [| discriminate].
  destruct (ioutil.ReadAll (http.resp_Body resp)) as [text [e2|]]; discriminate.
Qed.

Lemma FetchEnvoyStats_default_returns ctx σ :
  returned (acp.FetchEnvoyStats acp.NewEnvoyWatcher ctx σ).1 = true.
Proof.
  pose proof (defaultFetcher_meets_precondition ctx σ) as Hpre.
  unfold acp.NewEnvoyWatcher.
  destruct (outcome_cases acp.defaultFetcher ctx σ) as
    [(res & e & σ1 & Hf) | [(r & σ1 & Hf) | (σ1 & Hf)]].
  - by rewrite (FetchEnvoyStats_on_error _ _ ctx σ res e σ1 Hf).
  - by rewrite (FetchEnvoyStats_on_response _ _ ctx σ r σ1 Hf).
  - rewrite Hf in Hpre. done.
Qed.

(** C8: the default fetcher returns either a result with a nil error or a
    nil result with an error.  When the request cannot be built, when the
    round trip fails, or when a read of the body fails, it returns the
    error and no result, whatever part of the body was read before;
    otherwise the result holds the status code of the response and the
    whole body. *)
Theorem defaultFetcher_result_or_error ctx σ :
  let out := (acp.defaultFetcher ctx σ).1 in
  let built :=
    NewRequestWithContext (context.WithTimeout ctx (2 * time.Second)%Z)
                          http.MethodGet "http://localhost:8001/stats" in
  ((∃ r, out = (Some r, None)) ∨ (∃ e, out = (None, Some e)))
  ∧ (∀ e, built = inr e →
       out = (None, Some ("error creating request: " +:+ e)))
  ∧ (∀ req e, built = inl req → (DefaultClient_Do req (world σ)).1 = inr e →
       out = (None, Some ("error fetching stats: " +:+ e)))
  ∧ (∀ req resp bs e rest, built = inl req →
       (DefaultClient_Do req (world σ)).1 = inl resp →
       http.resp_Body resp = ((ioutil.Data <$> bs) ++ ioutil.Failure e :: rest)%list →
       out = (None, Some ("error reading body: " +:+ e)))
  ∧ (∀ req resp bs, built = inl req →
       (DefaultClient_Do req (world σ)).1 = inl resp →
       http.resp_Body resp = ioutil.Data <$> bs →
       out = (Some {| acp.StatusCode := http.resp_StatusCode resp;
                      acp.Text := ioutil.concat bs |}, None)).
Proof.
  intros out built. subst out built. rewrite defaultFetcher_run.
  destruct (NewRequestWithContext _ _ _) as [req | e0]; cycle 1.
  { split; [right; eauto |]. conjuncts; intros; simplify_eq; reflexivity. }
  destruct (DefaultClient_Do req (world σ)).1 as [resp | e1] eqn:HDo; cycle 1.
  { split; [right; eauto |]. conjuncts; intros; simplify_eq; congruence. }
  destruct (ioutil.ReadAll (http.resp_Body resp)) as [text [e2|]] eqn:Hread.
  - split; [right; eauto |]. conjuncts; intros; simplify_eq; try congruence.
    + same_response. rewrite ReadAll_failure in Hread. by simplify_eq.
    + same_response. rewrite ReadAll_data in Hread. discriminate.
  - split; [left; eauto |]. conjuncts; intros; simplify_eq; try congruence.
    + same_response. rewrite ReadAll_failure in Hread. discriminate.
    + same_response. rewrite ReadAll_data in Hread. by simplify_eq.
Qed.

End FetcherProperties.

(** ** Properties of the front door ([healthcheck_server.go]) *)
Section HandlerProperties.
Import entrypoint.
Context {World : Type} {T : Type} `{!AmbassadorWatcher World T}.
Implicit Types (ctx : context.Context) (σ : State World) (r : http.Request).
Implicit Types (ambwatch : T).

(** Each handler probes first: it does what [FetchEnvoyStats] does to the
    watcher and the world, and answers by the watcher the probe left. *)
Lemma handleCheckAlive_probes ctx r ambwatch σ :
  handleCheckAlive ctx http.newResponseWriter r ambwatch σ
  = match FetchEnvoyStats ambwatch ctx σ with
    | (Returned a, σ') =>
        (Returned (if IsAlive a
                   then http.Write http.newResponseWriter
                                    ("Ambassador is alive and well" +:+ nl)
                   else http.Error http.newResponseWriter
                                   ("Ambassador is not alive" +:+ nl) 503, a), σ')
    | (Panicked reason, σ') => (Panicked reason, σ')
    end.
Proof.
  unfold handleCheckAlive, bind.
  destruct (FetchEnvoyStats ambwatch ctx σ) as [[a | reason] σ']; [| reflexivity].
  destruct (IsAlive a); reflexivity.
Qed.

Lemma handleCheckReady_probes ctx r ambwatch σ :
  handleCheckReady ctx http.newResponseWriter r ambwatch σ
  = match FetchEnvoyStats ambwatch ctx σ with
    | (Returned a, σ') =>
        (Returned (if IsReady a
                   then http.Write http.newResponseWriter
                                    ("Ambassador is ready and waiting" +:+ nl)
                   else http.Error http.newResponseWriter
                                   ("Ambassador is not ready" +:+ nl) 503, a), σ')
    | (Panicked reason, σ') => (Panicked reason, σ')
    end.
Proof.
  unfold handleCheckReady, bind.
  destruct (FetchEnvoyStats ambwatch ctx σ) as [[a | reason] σ']; [| reflexivity].
  destruct (IsReady a); reflexivity.
Qed.

(** A healthy watcher: 200, and a message that ends in one line feed. *)
Lemma handleCheckAlive_healthy ctx r ambwatch σ a σ' :
  FetchEnvoyStats ambwatch ctx σ = (Returned a, σ') → IsAlive a = true →
  response (handleCheckAlive ctx http.newResponseWriter r ambwatch σ).1
  = Some (200%Z, "Ambassador is alive and well" +:+ nl)
  ∧ trailing_newlines ("Ambassador is alive and well" +:+ nl) = 1.
Proof.
  intros Hprobe Hok. rewrite handleCheckAlive_probes, Hprobe, Hok.
  split; reflexivity.
Qed.

Lemma handleCheckReady_healthy ctx r ambwatch σ a σ' :
  FetchEnvoyStats ambwatch ctx σ = (Returned a, σ') → IsReady a = true →
  response (handleCheckReady ctx http.newResponseWriter r ambwatch σ).1
  = Some (200%Z, "Ambassador is ready and waiting" +:+ nl)
  ∧ trailing_newlines ("Ambassador is ready and waiting" +:+ nl) = 1.
Proof.
  intros Hprobe Hok. rewrite handleCheckReady_probes, Hprobe, Hok.
  split; reflexivity.
Qed.

(** An unhealthy watcher: 503, and the message [http.Error] was handed
    already ends in a line feed, so the body ends in two. *)
Lemma handleCheckAlive_unhealthy ctx r ambwatch σ a σ' :
  FetchEnvoyStats ambwatch ctx σ = (Returned a, σ') → IsAlive a = false →
  response (handleCheckAlive ctx http.newResponseWriter r ambwatch σ).1
  = Some (503%Z, "Ambassador is not alive" +:+ nl +:+ nl)
  ∧ trailing_newlines ("Ambassador is not alive" +:+ nl +:+ nl) = 2.
Proof.
  intros Hprobe Hok. rewrite handleCheckAlive_probes, Hprobe, Hok.
  split; reflexivity.
Qed.

Lemma handleCheckReady_unhealthy ctx r ambwatch σ a σ' :
  FetchEnvoyStats ambwatch ctx σ = (Returned a, σ') → IsReady a = false →
  response (handleCheckReady ctx http.newResponseWriter r ambwatch σ).1
  = Some (503%Z, "Ambassador is not ready" +:+ nl +:+ nl)
  ∧ trailing_newlines ("Ambassador is not ready" +:+ nl +:+ nl) = 2.
Proof.
  intros Hprobe Hok. rewrite handleCheckReady_probes, Hprobe, Hok.
  split; reflexivity.
Qed.

End HandlerProperties.

(** C5 (at a failing input): with a fetcher that fails, each probe handler
    probes, then answers 503 with the content type [text/plain] and a body
    that ends in two line feeds: the message in the source ends in one, and
    [http.Error] adds its own. *)
Theorem probe_handlers_unhealthy_body :
  let w := scenario.watcher (scenario.fetch_error "connection refused") in
  let alive := entrypoint.handleCheckAlive context.Background
                 http.newResponseWriter scenario.probe w (scenario.quiet []) in
  let ready := entrypoint.handleCheckReady context.Background
                 http.newResponseWriter scenario.probe w (scenario.quiet []) in
  response alive.1 = Some (503%Z, "Ambassador is not alive" +:+ nl +:+ nl)
  ∧ response ready.1 = Some (503%Z, "Ambassador is not ready" +:+ nl +:+ nl)
  ∧ trailing_newlines ("Ambassador is not alive" +:+ nl +:+ nl) = 2
  ∧ trailing_newlines ("Ambassador is not ready" +:+ nl +:+ nl) = 2
  ∧ content_type alive.1 = "text/plain; charset=utf-8"
  ∧ content_type ready.1 = "text/plain; charset=utf-8"
  ∧ debug_log alive.2 = ["could not fetch Envoy status: connection refused"]
  ∧ debug_log ready.2 = ["could not fetch Envoy status: connection refused"].
Proof.
  intros w alive ready. subst w alive ready.
  rewrite handleCheckAlive_probes, handleCheckReady_probes.
  conjuncts; reflexivity.
Qed.

Section DirectorProperties.
Import entrypoint.
Variable HostPortIsLocal : string → bool.
Implicit Types (req : http.Request) (h : http.Header).

Lemma Header_Get_Set h key value :
  http.Header_Get (http.Header_Set h key value) key = value.
Proof. unfold http.Header_Get, http.Header_Set. by rewrite lookup_insert_eq. Qed.

Lemma Header_has_Set h key value :
  http.Header_has (http.Header_Set h key value) key = true.
Proof.
  unfold http.Header_has, http.Header_Set. apply bool_decide_eq_true.
  rewrite lookup_insert_eq. by eexists.
Qed.

Lemma Header_Set_other h key value k :
  k ≠ http.CanonicalMIMEHeaderKey key →
  http.Header_Set h key value !! k = h !! k.
Proof. intros Hk. unfold http.Header_Set. by rewrite lookup_insert_ne. Qed.

(** C6: on every request it is handed, the director puts the scheme and
    the host of [diagdOrigin] in the URL and leaves the rest of the URL
    (path, query and the others), the method, the body, the [Host] field
    and the remote address as they were; of the headers, none but the
    local marker can differ. *)
Theorem Director_rewrites_scheme_and_host req :
  let out := Director HostPortIsLocal req in
  url.Scheme (http.req_URL out) = "http"
  ∧ url.Host (http.req_URL out) = "127.0.0.1:8004"
  ∧ url.Path (http.req_URL out) = url.Path (http.req_URL req)
  ∧ url.RawPath (http.req_URL out) = url.RawPath (http.req_URL req)
  ∧ url.RawQuery (http.req_URL out) = url.RawQuery (http.req_URL req)
  ∧ url.Opaque (http.req_URL out) = url.Opaque (http.req_URL req)
  ∧ url.Fragment (http.req_URL out) = url.Fragment (http.req_URL req)
  ∧ http.req_Method out = http.req_Method req
  ∧ http.req_Body out = http.req_Body req
  ∧ http.req_Host out = http.req_Host req
  ∧ http.req_RemoteAddr out = http.req_RemoteAddr req
  ∧ http.req_ctx out = http.req_ctx req
  ∧ ∀ k, k ≠ http.CanonicalMIMEHeaderKey DiagIP →
         http.req_Header out !! k = http.req_Header req !! k.
Proof.
  intros out. subst out. unfold Director; simpl.
  destruct (HostPortIsLocal (http.req_RemoteAddr req)); simpl;
    conjuncts; try reflexivity.
  intros k Hk. by apply Header_Set_other.
Qed.

(** C7 (as amended): when the remote address of the inbound request is
    local, the director sets the marker header to 127.0.0.1; when it is
    not, the director leaves the headers as they came, so the forwarded
    request carries the marker exactly when the inbound request did. *)
Theorem Director_marks_local_requests req :
  let out := Director HostPortIsLocal req in
  (HostPortIsLocal (http.req_RemoteAddr req) = true →
     http.req_Header out = http.Header_Set (http.req_Header req) DiagIP "127.0.0.1"
     ∧ http.Header_has (http.req_Header out) DiagIP = true
     ∧ http.Header_Get (http.req_Header out) DiagIP = "127.0.0.1")
  ∧ (HostPortIsLocal (http.req_RemoteAddr req) = false →
     http.req_Header out = http.req_Header req
     ∧ http.Header_has (http.req_Header out) DiagIP
       = http.Header_has (http.req_Header req) DiagIP).
Proof.
  intros out. subst out. unfold Director; simpl.
  destruct (HostPortIsLocal (http.req_RemoteAddr req)); simpl.
  - split; [intros _ | discriminate].
    conjuncts; [reflexivity | apply Header_has_Set | apply Header_Get_Set].
  - split; [discriminate | intros _]. split; reflexivity.
Qed.

End DirectorProperties.

Section ServerProperties.
Import entrypoint.
Context {World : Type} `{!Net World} {T : Type}.
Implicit Types (ctx : context.Context) (σ : State World) (ambwatch : T).

(** The routine, by what the listener and the shutdown answer. *)
Lemma healthCheckHandler_run ctx ambwatch σ :
  healthCheckHandler ctx ambwatch σ
  = match net_Listen "tcp4" ":8877" (world σ) with
    | (inr e, wd) =>
        (Panicked ("could not listen on TCP port 8877: " +:+ e), with_world σ wd)
    | (inl l, wd) =>
        match Server_Shutdown health_server shutdown_ctx
                (await_Done ctx (go_Serve health_server l wd)) with
        | (Some e, wd') => (Panicked e, with_world σ wd')
        | (None, wd') => (Returned tt, with_world σ wd')
        end
    end.
Proof.
  unfold healthCheckHandler, bind, on_world, on_world_, panic, ret, with_world.
  destruct (net_Listen "tcp4" ":8877" (world σ)) as [[l | e] wd]; simpl;
    [| reflexivity].
  change (HandleFunc _ "/" _) with (Server_Handler health_server).
  change {| Addr := ":8877"; Server_Handler := Server_Handler health_server |}
    with health_server.
  change (context.WithTimeout _ _) with shutdown_ctx.
  destruct (Server_Shutdown health_server shutdown_ctx _) as [[e|] wd'];
    reflexivity.
Qed.


End ServerProperties.

(** ** Worked examples on the scripted world *)

(** C1, at a test fetcher that returns status 200. *)
Lemma FetchEnvoyStats_healthy_iff_200_witness :
  fetched_200 (scenario.fetch_status 200 context.Background (scenario.quiet [])).1
  ∧ ∃ w', (acp.FetchEnvoyStats (scenario.watcher (scenario.fetch_status 200))
             context.Background (scenario.quiet [])).1 = Returned w'
          ∧ acp.IsAlive w' = true ∧ acp.IsReady w' = true.
Proof.
  assert (H : fetched_200
                (scenario.fetch_status 200 context.Background (scenario.quiet [])).1).
  { split; [reflexivity |]. eexists. split; reflexivity. }
  split; [exact H |].
  exact (proj1 (FetchEnvoyStats_healthy_iff_200 acp.NewEnvoyWatcher
                  (scenario.fetch_status 200) context.Background
                  (scenario.quiet [])) H).
Defined.

(** C3, as stated, fails at a fetcher that returns a nil result and a nil
    error: the call panics on the nil pointer and does not return; a
    watcher that was healthy stays as it was. *)
Lemma FetchEnvoyStats_nil_nil_panics :
  acp.FetchEnvoyStats (scenario.healthy_watcher scenario.fetch_nil_nil)
    context.Background (scenario.quiet [])
  = (Panicked nil_dereference, scenario.quiet [])
  ∧ ¬ ∃ w' σ', acp.FetchEnvoyStats (scenario.healthy_watcher scenario.fetch_nil_nil)
                 context.Background (scenario.quiet []) = (Returned w', σ').
Proof.
  split; [reflexivity |]. intros (w' & σ' & H). vm_compute in H. discriminate H.
Qed.

(** C3 (as amended), at a fetcher that fails, from a watcher that never
    probed and from one that was healthy. *)
Lemma FetchEnvoyStats_returns_last_outcome_witness :
  (scenario.fetch_error "connection refused" context.Background (scenario.quiet [])).1
  ≠ (None, None)
  ∧ ∃ w' σ',
      acp.FetchEnvoyStats
        (acp.SetFetchStats acp.NewEnvoyWatcher (scenario.fetch_error "connection refused"))
        context.Background (scenario.quiet []) = (Returned w', σ')
      ∧ acp.FetchEnvoyStats
          (acp.SetFetchStats (scenario.healthy_watcher scenario.fetch_nil_nil)
                             (scenario.fetch_error "connection refused"))
          context.Background (scenario.quiet []) = (Returned w', σ')
      ∧ acp.LastSucceeded w'
        = health_of (scenario.fetch_error "connection refused" context.Background
                       (scenario.quiet [])).1.
Proof.
  assert (H : (scenario.fetch_error "connection refused" context.Background
                 (scenario.quiet [])).1 ≠ (None, None)) by discriminate.
  split; [exact H |].
  exact (FetchEnvoyStats_returns_last_outcome acp.NewEnvoyWatcher
           (scenario.healthy_watcher scenario.fetch_nil_nil)
           (scenario.fetch_error "connection refused") context.Background
           (scenario.quiet []) H).
Defined.

(** C10, at a fetcher that returns a nil result with an error. *)
Lemma FetchEnvoyStats_nil_safety_witness :
  acp.FetchEnvoyStats (scenario.watcher (scenario.fetch_error "connection refused"))
    context.Background (scenario.quiet [])
  = (Returned {| acp.fetchStats := Some (scenario.fetch_error "connection refused");
                 acp.LastSucceeded := false |},
     logged "connection refused" (scenario.quiet [])).
Proof.
  exact (proj1 (FetchEnvoyStats_nil_safety acp.NewEnvoyWatcher
                  (scenario.fetch_error "connection refused") context.Background
                  (scenario.quiet [])) "connection refused" eq_refl).
Defined.

(** C8, at a response whose body breaks off after two reads. *)
Lemma defaultFetcher_result_or_error_witness :
  (acp.defaultFetcher context.Background (scenario.quiet [inl scenario.broken_body])).1
  = (None, Some "error reading body: unexpected EOF").
Proof.
  destruct (defaultFetcher_result_or_error context.Background
              (scenario.quiet [inl scenario.broken_body])) as (_ & _ & _ & H & _).
  exact (H _ scenario.broken_body ["cluster.xds"; ".update_success: 1"]
           "unexpected EOF" [] eq_refl eq_refl eq_refl).
Defined.

(** C7, as stated, fails at a request from another machine that brings the
    marker along: the remote address is not local, and the request the
    director hands on still carries the marker, with the value
    127.0.0.1. *)
Lemma Director_forwards_spoofed_marker :
  scenario.HostPortIsLocal (http.req_RemoteAddr scenario.spoofed) = false
  ∧ http.Header_has
      (http.req_Header (entrypoint.Director scenario.HostPortIsLocal scenario.spoofed))
      DiagIP = true
  ∧ http.Header_Get
      (http.req_Header (entrypoint.Director scenario.HostPortIsLocal scenario.spoofed))
      DiagIP = "127.0.0.1".
Proof. conjuncts; vm_compute; reflexivity. Qed.

(** C7 (as amended), at a request from 127.0.0.1. *)
Lemma Director_marks_local_requests_witness :
  scenario.HostPortIsLocal (http.req_RemoteAddr scenario.local_request) = true
  ∧ http.Header_has
      (http.req_Header (entrypoint.Director scenario.HostPortIsLocal
                          scenario.local_request)) DiagIP = true.
Proof.
  assert (H : scenario.HostPortIsLocal (http.req_RemoteAddr scenario.local_request)
              = true) by reflexivity.
  split; [exact H |].
  exact (proj1 (proj2 (proj1 (Director_marks_local_requests
                                scenario.HostPortIsLocal scenario.local_request) H))).
Defined.

(** C6, at a POST with a path, a query and a body. *)
Lemma Director_rewrites_scheme_and_host_witness :
  url.Path (http.req_URL (entrypoint.Director scenario.HostPortIsLocal scenario.spoofed))
  = "/ambassador/v0/diag/"
  ∧ url.RawQuery (http.req_URL (entrypoint.Director scenario.HostPortIsLocal
                                  scenario.spoofed)) = "json=true".
Proof.
  destruct (Director_rewrites_scheme_and_host scenario.HostPortIsLocal
              scenario.spoofed) as (_ & _ & Hpath & _ & Hquery & _).
  split; [exact Hpath | exact Hquery].
Defined.


(** ** Further properties of the watcher and the default fetcher *)
Section MoreWatcherProperties.
Context {World : Type} `{!Client World}.
Implicit Types (w : acp.EnvoyWatcher World) (f : acp.envoyFetcher World).
Implicit Types (ctx : context.Context) (σ : State World).

(** A stream that was read to its end without an error held data alone. *)
Lemma ReadAll_complete body text :
  ioutil.ReadAll body = (text, None) →
  ∃ bs, body = ioutil.Data <$> bs ∧ text = ioutil.concat bs.
Proof.
  intros Hread.
  destruct (Body_cases body) as [(bs & ->) | (bs & e & rest & ->)].
  - rewrite ReadAll_data in Hread. exists bs. by simplify_eq.
  - rewrite ReadAll_failure in Hread. discriminate.
Qed.

(** X1: a probe of the watcher [NewEnvoyWatcher] makes always returns, and
    it leaves the watcher alive exactly when the request could be built,
    the round trip gave a response with status 200, and the body of that
    response was read to its end; a 200 whose body breaks off counts as a
    failure. *)
Theorem default_probe_healthy_iff_complete_200 ctx σ :
  let built :=
    NewRequestWithContext (context.WithTimeout ctx (2 * time.Second)%Z)
                          http.MethodGet "http://localhost:8001/stats" in
  ∃ w' σ',
    acp.FetchEnvoyStats acp.NewEnvoyWatcher ctx σ = (Returned w', σ')
    ∧ (acp.IsAlive w' = true ↔
       ∃ req resp bs,
         built = inl req
         ∧ (DefaultClient_Do req (world σ)).1 = inl resp
         ∧ http.resp_StatusCode resp = 200%Z
         ∧ http.resp_Body resp = ioutil.Data <$> bs).
Proof.
  intros built. subst built. unfold acp.NewEnvoyWatcher.
  pose proof (defaultFetcher_run ctx σ) as Hrun.
  destruct (acp.defaultFetcher ctx σ) as [[res err] σ1] eqn:Hf. simpl in Hrun.
  destruct (NewRequestWithContext _ _ _) as [req | e0].
  - destruct (DefaultClient_Do req (world σ)).1 as [resp | e1] eqn:HDo.
    + destruct (ioutil.ReadAll (http.resp_Body resp)) as [text [e2|]] eqn:Hread;
        injection Hrun as -> ->.
      * rewrite (FetchEnvoyStats_on_error _ _ ctx σ _ _ σ1 Hf).
        do 2 eexists. split; [reflexivity |]. unfold acp.IsAlive; simpl.
        split; [discriminate |]. intros (req' & resp' & bs & Hreq & Hresp & _ & Hbody).
        simplify_eq. rewrite HDo in Hresp. simplify_eq.
        rewrite Hbody, ReadAll_data in Hread. discriminate.
      * rewrite (FetchEnvoyStats_on_response _ _ ctx σ _ σ1 Hf).
        do 2 eexists. split; [reflexivity |]. unfold acp.IsAlive; simpl.
        rewrite Z.eqb_eq. split.
        -- intros Hcode. destruct (ReadAll_complete _ _ Hread) as (bs & Hbody & _).
           by exists req, resp, bs.
        -- intros (req' & resp' & bs & Hreq & Hresp & Hcode & _).
           simplify_eq. rewrite HDo in Hresp. by simplify_eq.
    + injection Hrun as -> ->.
      rewrite (FetchEnvoyStats_on_error _ _ ctx σ _ _ σ1 Hf).
      do 2 eexists. split; [reflexivity |]. unfold acp.IsAlive; simpl.
      split; [discriminate |]. intros (req' & resp' & bs & Hreq & Hresp & _).
      simplify_eq. rewrite HDo in Hresp. discriminate.
  - injection Hrun as -> ->.
    rewrite (FetchEnvoyStats_on_error _ _ ctx σ _ _ σ1 Hf).
    do 2 eexists. split; [reflexivity |]. unfold acp.IsAlive; simpl.
    split; [discriminate |]. intros (req' & resp' & bs & Hreq & _). discriminate.
Qed.

(** X2: the default fetcher makes one attempt: it never writes to the
    debug log, and the world it leaves is the one a single round trip
    left, or the one it found when the request could not be built. *)
Theorem defaultFetcher_single_round_trip ctx σ :
  let built :=
    NewRequestWithContext (context.WithTimeout ctx (2 * time.Second)%Z)
                          http.MethodGet "http://localhost:8001/stats" in
  debug_log (acp.defaultFetcher ctx σ).2 = debug_log σ
  ∧ world (acp.defaultFetcher ctx σ).2
    = match built with
      | inl req => (DefaultClient_Do req (world σ)).2
      | inr _ => world σ
      end.
Proof.
  intros built. subst built. unfold acp.defaultFetcher.
  destruct (NewRequestWithContext _ _ _) as [req | e0]; [| split; reflexivity].
  destruct (DefaultClient_Do req (world σ)) as [[resp | e1] wd]; simpl;
    [| split; reflexivity].
  destruct (ioutil.ReadAll (http.resp_Body resp)) as [text [e2|]];
    split; reflexivity.
Qed.

(** X3: [FetchEnvoyStats] itself does nothing to the outside world beyond
    what the fetcher did; it writes one line to the debug log, holding the
    error, when the fetcher returned an error, and nothing when the error
    is nil, whatever the status code is. *)
Theorem FetchEnvoyStats_logs_only_errors w f ctx σ :
  let out := (f ctx σ).1 in
  let fetched := (f ctx σ).2 in
  let run := acp.FetchEnvoyStats (acp.SetFetchStats w f) ctx σ in
  world run.2 = world fetched
  ∧ (∀ e, out.2 = Some e →
       debug_log run.2
       = (debug_log fetched ++ ["could not fetch Envoy status: " +:+ e])%list)
  ∧ (out.2 = None → debug_log run.2 = debug_log fetched).
Proof.
  intros out fetched run. subst out fetched run.
  destruct (outcome_cases f ctx σ) as
    [(res & e & σ1 & Hf) | [(r & σ1 & Hf) | (σ1 & Hf)]].
  - rewrite (FetchEnvoyStats_on_error w f ctx σ res e σ1 Hf), Hf; simpl.
    conjuncts; [reflexivity | by intros ? [= <-] | discriminate].
  - rewrite (FetchEnvoyStats_on_response w f ctx σ r σ1 Hf), Hf; simpl.
    conjuncts; [reflexivity | discriminate | reflexivity].
  - rewrite (FetchEnvoyStats_on_nil_nil w f ctx σ σ1 Hf), Hf; simpl.
    conjuncts; [reflexivity | discriminate | reflexivity].
Qed.

(** X4: a watcher that was never given a fetcher (the zero struct) panics
    on the nil function when probed, and nothing is fetched or logged; a
    probe that returns leaves the fetcher the watcher had. *)
Theorem FetchEnvoyStats_fetcher_invariant w ctx σ :
  (acp.fetchStats w = None →
     acp.FetchEnvoyStats w ctx σ = (Panicked nil_dereference, σ))
  ∧ (∀ w' σ', acp.FetchEnvoyStats w ctx σ = (Returned w', σ') →
       acp.fetchStats w' = acp.fetchStats w ∧ is_Some (acp.fetchStats w)).
Proof.
  unfold acp.FetchEnvoyStats, bind, call.
  destruct (acp.fetchStats w) as [f|] eqn:Hfetch; simpl.
  - split; [discriminate |]. intros w' σ' Hrun.
    destruct (f ctx σ) as [[res [e|]] σ1]; simpl in Hrun.
    + injection Hrun as <- _. by split.
    + destruct res as [r|]; simpl in Hrun; [| discriminate].
      destruct (acp.StatusCode r =? 200)%Z; injection Hrun as <- _; by split.
  - split; [reflexivity | discriminate].
Qed.

End MoreWatcherProperties.

(** ** Further properties of the front door *)
Section MoreHandlerProperties.
Import entrypoint.
Context {World : Type} {T : Type} `{!AmbassadorWatcher World T}.
Implicit Types (ctx : context.Context) (σ : State World) (r : http.Request).
Implicit Types (ambwatch : T).

(** X5: when the probe returns and the watcher reports healthy, the
    liveness handler answers 200 with [Ambassador is alive and well] and
    the readiness handler 200 with [Ambassador is ready and waiting],
    each ending in one line feed; the handlers set no content type of
    their own on this path. *)
Theorem probe_handlers_healthy_response ctx r ambwatch σ a σ' :
  FetchEnvoyStats ambwatch ctx σ = (Returned a, σ') →
  (IsAlive a = true →
     response (handleCheckAlive ctx http.newResponseWriter r ambwatch σ).1
     = Some (200%Z, "Ambassador is alive and well" +:+ nl)
     ∧ content_type (handleCheckAlive ctx http.newResponseWriter r ambwatch σ).1
       = EmptyString)
  ∧ (IsReady a = true →
     response (handleCheckReady ctx http.newResponseWriter r ambwatch σ).1
     = Some (200%Z, "Ambassador is ready and waiting" +:+ nl)
     ∧ content_type (handleCheckReady ctx http.newResponseWriter r ambwatch σ).1
       = EmptyString)
  ∧ trailing_newlines ("Ambassador is alive and well" +:+ nl) = 1
  ∧ trailing_newlines ("Ambassador is ready and waiting" +:+ nl) = 1.
Proof.
  intros Hprobe. rewrite handleCheckAlive_probes, handleCheckReady_probes, Hprobe.
  conjuncts; [intros -> | intros -> | |]; try split; reflexivity.
Qed.

(** X6: each handler makes one probe and nothing else: the world and the
    debug log it leaves are those the probe left, the watcher it hands
    back is the one the probe left, and when the probe panics the handler
    panics with the same reason, without an answer. *)
Theorem probe_handlers_probe_once ctx r ambwatch σ :
  let probed := FetchEnvoyStats ambwatch ctx σ in
  let alive := handleCheckAlive ctx http.newResponseWriter r ambwatch σ in
  let ready := handleCheckReady ctx http.newResponseWriter r ambwatch σ in
  alive.2 = probed.2
  ∧ ready.2 = probed.2
  ∧ (∀ reason, probed.1 = Panicked reason →
       alive.1 = Panicked reason ∧ ready.1 = Panicked reason
       ∧ response alive.1 = None ∧ response ready.1 = None)
  ∧ (∀ a, probed.1 = Returned a →
       ∃ rw1 rw2, alive.1 = Returned (rw1, a) ∧ ready.1 = Returned (rw2, a)).
Proof.
  intros probed alive ready. subst probed alive ready.
  rewrite handleCheckAlive_probes, handleCheckReady_probes.
  destruct (FetchEnvoyStats ambwatch ctx σ) as [[a | reason] σ']; simpl.
  - conjuncts; [reflexivity | reflexivity | discriminate |].
    intros ? [= <-]. eauto.
  - conjuncts; [reflexivity | reflexivity | | discriminate].
    intros ? [= <-]. conjuncts; reflexivity.
Qed.

(** X7: for a watcher whose [IsReady] answers what its [IsAlive] answers,
    the two handlers give the same status on the same request, watcher
    and world: both 200 or both 503, or neither answers. *)
Theorem probe_handlers_same_status ctx r ambwatch σ :
  (∀ a : T, IsReady a = IsAlive a) →
  fst <$> response (handleCheckReady ctx http.newResponseWriter r ambwatch σ).1
  = fst <$> response (handleCheckAlive ctx http.newResponseWriter r ambwatch σ).1
  ∧ (fst <$> response (handleCheckAlive ctx http.newResponseWriter r ambwatch σ).1)
    ∈ [Some 200%Z; Some 503%Z; None].
Proof.
  intros Hsame. rewrite handleCheckAlive_probes, handleCheckReady_probes.
  destruct (FetchEnvoyStats ambwatch ctx σ) as [[a | reason] σ']; simpl.
  - rewrite Hsame. destruct (IsAlive a); simpl; split; try reflexivity;
      set_solver.
  - split; [reflexivity | set_solver].
Qed.

End MoreHandlerProperties.

Section MoreDirectorProperties.
Import entrypoint.
Variable HostPortIsLocal : string → bool.
Implicit Types (req : http.Request).

(** X8: the director is idempotent: a request it has rewritten is left
    as it is by a second pass, also when the marker was set. *)
Theorem Director_idempotent req :
  Director HostPortIsLocal (Director HostPortIsLocal req)
  = Director HostPortIsLocal req.
Proof.
  unfold Director; simpl.
  destruct (HostPortIsLocal (http.req_RemoteAddr req)) eqn:Hlocal; simpl;
    rewrite Hlocal; [| reflexivity].
  unfold set_Header, set_URL; simpl. f_equal.
  unfold http.Header_Set. by rewrite insert_insert_eq.
Qed.

End MoreDirectorProperties.

(** X4, at the zero struct. *)
Lemma FetchEnvoyStats_fetcher_invariant_witness :
  acp.FetchEnvoyStats {| acp.fetchStats := None; acp.LastSucceeded := false |}
    context.Background (scenario.quiet [])
  = (Panicked nil_dereference, scenario.quiet []).
Proof.
  exact (proj1 (FetchEnvoyStats_fetcher_invariant
                  {| acp.fetchStats := None; acp.LastSucceeded := false |}
                  context.Background (scenario.quiet [])) eq_refl).
Defined.

(** X3, at a fetcher that fails. *)
Lemma FetchEnvoyStats_logs_only_errors_witness :
  debug_log (acp.FetchEnvoyStats (scenario.watcher (scenario.fetch_error "connection refused"))
               context.Background (scenario.quiet [])).2
  = ["could not fetch Envoy status: connection refused"].
Proof.
  exact (proj1 (proj2 (FetchEnvoyStats_logs_only_errors acp.NewEnvoyWatcher
                         (scenario.fetch_error "connection refused")
                         context.Background (scenario.quiet [])))
               "connection refused" eq_refl).
Defined.

(** X5, at a test fetcher that returns status 200. *)
Lemma probe_handlers_healthy_response_witness :
  response (entrypoint.handleCheckAlive context.Background http.newResponseWriter
              scenario.probe (scenario.watcher (scenario.fetch_status 200))
              (scenario.quiet [])).1
  = Some (200%Z, "Ambassador is alive and well" +:+ nl).
Proof.
  exact (proj1 (proj1 (probe_handlers_healthy_response context.Background
                         scenario.probe (scenario.watcher (scenario.fetch_status 200))
                         (scenario.quiet []) _ _ eq_refl) eq_refl)).
Defined.

(** X6, at a fetcher that returns a nil result and a nil error. *)
Lemma probe_handlers_probe_once_witness :
  (entrypoint.handleCheckAlive context.Background http.newResponseWriter
     scenario.probe (scenario.watcher scenario.fetch_nil_nil) (scenario.quiet [])).1
  = Panicked nil_dereference.
Proof.
  destruct (probe_handlers_probe_once context.Background scenario.probe
              (scenario.watcher scenario.fetch_nil_nil) (scenario.quiet []))
    as (_ & _ & H & _).
  exact (proj1 (H nil_dereference eq_refl)).
Defined.

(** X7, at the watcher of [envoy.go] and a fetcher that returns 204. *)
Lemma probe_handlers_same_status_witness :
  fst <$> response (entrypoint.handleCheckReady context.Background
                      http.newResponseWriter scenario.probe
                      (scenario.watcher (scenario.fetch_status 204))
                      (scenario.quiet [])).1
  = fst <$> response (entrypoint.handleCheckAlive context.Background
                        http.newResponseWriter scenario.probe
                        (scenario.watcher (scenario.fetch_status 204))
                        (scenario.quiet [])).1.
Proof.
  exact (proj1 (probe_handlers_same_status context.Background scenario.probe
                  (scenario.watcher (scenario.fetch_status 204))
                  (scenario.quiet []) (fun a => eq_refl))).
Defined.
